(** * Preset / parameter synchronisation of the Parameters panel

    Shallow embedding of the script part of
    [laser_frontend/src/components/Parameters.vue]: the component's reactive
    data, its [presets] prop, the options of the preset drop-down, and the
    methods [updatePresetsOptions], [applyPreset], [applyParams] and
    [downloadsvg].  Events handed to [this.$emit] are collected in a log that
    is threaded through every method, in emission order. *)

From Stdlib Require Import Floats String List Bool.
Import ListNotations.

#[local] Set Warnings "-inexact-float".
#[local] Open Scope string_scope.
#[local] Open Scope list_scope.

(** ** Values

    What a bound field can hold.  Numeric inputs use [v-model.number], which
    stores a number when the text parses and the raw string otherwise; a
    preset row read from outside may also lack a key altogether, in which case
    the property read yields [undefined].  Numbers are binary64 floats. *)

Inductive value : Type :=
| VUndefined
| VNumber (x : float)
| VString (s : string).

(** ** One row of the [presets] prop *)

Module Preset.
Record t : Type := mk {
  preset : string;
  notes : value;
  thickness : value;
  width : value;
  height : value;
  kerf : value;
  boxC : value; boxL : value; boxI : value;
  tabC : value; tabL : value; tabI : value;
  slotC : value; slotL : value; slotI : value;
  style : value
}.
End Preset.

(** ** The component's reactive data (the object returned by [data()]) *)

Module Data.
Record t : Type := mk {
  scale : value;
  preset : string;
  notes : value;
  thickness : value;
  width : value;
  height : value;
  kerf : value;
  boxC : value; boxL : value; boxI : value;
  tabC : value; tabL : value; tabI : value;
  slotC : value; slotL : value; slotI : value;
  style : value
}.

(** The literal returned by [data: function () { return {...}; }]. *)
Definition initial : t := {|
  scale := VNumber 1.0%float;
  preset := "custom";
  notes := VString "No notes";
  thickness := VNumber 3.0%float;
  width := VNumber 450.0%float;
  height := VNumber 300.0%float;
  kerf := VNumber 0.05%float;
  boxC := VNumber 0%float; boxL := VNumber 0%float; boxI := VNumber 0%float;
  tabC := VNumber 0%float; tabL := VNumber 0%float; tabI := VNumber 0%float;
  slotC := VNumber 0%float; slotL := VNumber 0%float; slotI := VNumber 0%float;
  style := VString "stroke:#ff00ff;stroke-width:5px;"
|}.

(** Assignments [this.<field> = v], one per field. *)
Definition set_scale (v : value) (d : t) : t :=
  mk v (preset d) (notes d) (thickness d) (width d) (height d) (kerf d)
     (boxC d) (boxL d) (boxI d) (tabC d) (tabL d) (tabI d)
     (slotC d) (slotL d) (slotI d) (style d).
Definition set_preset (n : string) (d : t) : t :=
  mk (scale d) n (notes d) (thickness d) (width d) (height d) (kerf d)
     (boxC d) (boxL d) (boxI d) (tabC d) (tabL d) (tabI d)
     (slotC d) (slotL d) (slotI d) (style d).
Definition set_notes (v : value) (d : t) : t :=
  mk (scale d) (preset d) v (thickness d) (width d) (height d) (kerf d)
     (boxC d) (boxL d) (boxI d) (tabC d) (tabL d) (tabI d)
     (slotC d) (slotL d) (slotI d) (style d).
Definition set_thickness (v : value) (d : t) : t :=
  mk (scale d) (preset d) (notes d) v (width d) (height d) (kerf d)
     (boxC d) (boxL d) (boxI d) (tabC d) (tabL d) (tabI d)
     (slotC d) (slotL d) (slotI d) (style d).
Definition set_width (v : value) (d : t) : t :=
  mk (scale d) (preset d) (notes d) (thickness d) v (height d) (kerf d)
     (boxC d) (boxL d) (boxI d) (tabC d) (tabL d) (tabI d)
     (slotC d) (slotL d) (slotI d) (style d).
Definition set_height (v : value) (d : t) : t :=
  mk (scale d) (preset d) (notes d) (thickness d) (width d) v (kerf d)
     (boxC d) (boxL d) (boxI d) (tabC d) (tabL d) (tabI d)
     (slotC d) (slotL d) (slotI d) (style d).
Definition set_kerf (v : value) (d : t) : t :=
  mk (scale d) (preset d) (notes d) (thickness d) (width d) (height d) v
     (boxC d) (boxL d) (boxI d) (tabC d) (tabL d) (tabI d)
     (slotC d) (slotL d) (slotI d) (style d).
Definition set_boxC (v : value) (d : t) : t :=
  mk (scale d) (preset d) (notes d) (thickness d) (width d) (height d) (kerf d)
     v (boxL d) (boxI d) (tabC d) (tabL d) (tabI d)
     (slotC d) (slotL d) (slotI d) (style d).
Definition set_boxL (v : value) (d : t) : t :=
  mk (scale d) (preset d) (notes d) (thickness d) (width d) (height d) (kerf d)
     (boxC d) v (boxI d) (tabC d) (tabL d) (tabI d)
     (slotC d) (slotL d) (slotI d) (style d).
Definition set_boxI (v : value) (d : t) : t :=
  mk (scale d) (preset d) (notes d) (thickness d) (width d) (height d) (kerf d)
     (boxC d) (boxL d) v (tabC d) (tabL d) (tabI d)
     (slotC d) (slotL d) (slotI d) (style d).
Definition set_tabC (v : value) (d : t) : t :=
  mk (scale d) (preset d) (notes d) (thickness d) (width d) (height d) (kerf d)
     (boxC d) (boxL d) (boxI d) v (tabL d) (tabI d)
     (slotC d) (slotL d) (slotI d) (style d).
Definition set_tabL (v : value) (d : t) : t :=
  mk (scale d) (preset d) (notes d) (thickness d) (width d) (height d) (kerf d)
     (boxC d) (boxL d) (boxI d) (tabC d) v (tabI d)
     (slotC d) (slotL d) (slotI d) (style d).
Definition set_tabI (v : value) (d : t) : t :=
  mk (scale d) (preset d) (notes d) (thickness d) (width d) (height d) (kerf d)
     (boxC d) (boxL d) (boxI d) (tabC d) (tabL d) v
     (slotC d) (slotL d) (slotI d) (style d).
Definition set_slotC (v : value) (d : t) : t :=
  mk (scale d) (preset d) (notes d) (thickness d) (width d) (height d) (kerf d)
     (boxC d) (boxL d) (boxI d) (tabC d) (tabL d) (tabI d)
     v (slotL d) (slotI d) (style d).
Definition set_slotL (v : value) (d : t) : t :=
  mk (scale d) (preset d) (notes d) (thickness d) (width d) (height d) (kerf d)
     (boxC d) (boxL d) (boxI d) (tabC d) (tabL d) (tabI d)
     (slotC d) v (slotI d) (style d).
Definition set_slotI (v : value) (d : t) : t :=
  mk (scale d) (preset d) (notes d) (thickness d) (width d) (height d) (kerf d)
     (boxC d) (boxL d) (boxI d) (tabC d) (tabL d) (tabI d)
     (slotC d) (slotL d) v (style d).
Definition set_style (v : value) (d : t) : t :=
  mk (scale d) (preset d) (notes d) (thickness d) (width d) (height d) (kerf d)
     (boxC d) (boxL d) (boxI d) (tabC d) (tabL d) (tabI d)
     (slotC d) (slotL d) (slotI d) v.
End Data.

(** ** The payload of the ["update"] event

    The object literal built in [applyParams], with the keys it lists. *)

Module Snapshot.
Record t : Type := mk {
  preset : string;
  notes : value;
  scale : value;
  thickness : value;
  width : value;
  height : value;
  kerf : value;
  boxC : value; boxL : value; boxI : value;
  tabC : value; tabL : value; tabI : value;
  slotC : value; slotL : value; slotI : value;
  style : value
}.
End Snapshot.

(** ** Events given to [this.$emit] *)

Inductive event : Type :=
| Update (payload : Snapshot.t)
| Download.

(** ** The [<option>] children of the preset [<select>] *)

Module SelectOption.
Record t : Type := mk {
  value : string;
  text : string;
  disabled : bool
}.
End SelectOption.

(** ** The component instance

    [presets] is the prop, [data] the reactive data, [select] the children of
    [this.$refs.presets] in document order, and [emitted] the events passed to
    [$emit] so far, oldest first.  The drop-down's own DOM [value] is written
    by [updatePresetsOptions] but never read back by any method, so it is not
    part of the state. *)

Record component : Type := mkComponent {
  presets : list Preset.t;
  data : Data.t;
  select : list SelectOption.t;
  emitted : list event
}.

Definition with_presets (ps : list Preset.t) (c : component) : component :=
  mkComponent ps (data c) (select c) (emitted c).
Definition with_data (d : Data.t) (c : component) : component :=
  mkComponent (presets c) d (select c) (emitted c).
Definition with_select (os : list SelectOption.t) (c : component) : component :=
  mkComponent (presets c) (data c) os (emitted c).

(** [this.$emit(...)]: the event is appended to the log. *)
Definition emit (e : event) (c : component) : component :=
  mkComponent (presets c) (data c) (select c) (emitted c ++ [e]).

(** ** Methods *)

(** [applyParams]: emits ["update"] with an object literal whose keys are read
    off [this] one by one. *)
Definition snapshot (d : Data.t) : Snapshot.t := {|
  Snapshot.preset := Data.preset d;
  Snapshot.notes := Data.notes d;
  Snapshot.scale := Data.scale d;
  Snapshot.thickness := Data.thickness d;
  Snapshot.width := Data.width d;
  Snapshot.height := Data.height d;
  Snapshot.kerf := Data.kerf d;
  Snapshot.boxC := Data.boxC d;
  Snapshot.boxL := Data.boxL d;
  Snapshot.boxI := Data.boxI d;
  Snapshot.tabC := Data.tabC d;
  Snapshot.tabL := Data.tabL d;
  Snapshot.tabI := Data.tabI d;
  Snapshot.slotC := Data.slotC d;
  Snapshot.slotL := Data.slotL d;
  Snapshot.slotI := Data.slotI d;
  Snapshot.style := Data.style d
|}.

Definition applyParams (c : component) : component :=
  emit (Update (snapshot (data c))) c.

(** The fifteen assignments in the body of the [if] of [applyPreset], in the
    order the source performs them (the first assignment is innermost). *)
Definition load (p : Preset.t) (d : Data.t) : Data.t :=
  Data.set_style (Preset.style p)
  (Data.set_slotI (Preset.slotI p)
  (Data.set_slotL (Preset.slotL p)
  (Data.set_slotC (Preset.slotC p)
  (Data.set_tabI (Preset.tabI p)
  (Data.set_tabL (Preset.tabL p)
  (Data.set_tabC (Preset.tabC p)
  (Data.set_boxI (Preset.boxI p)
  (Data.set_boxL (Preset.boxL p)
  (Data.set_boxC (Preset.boxC p)
  (Data.set_kerf (Preset.kerf p)
  (Data.set_height (Preset.height p)
  (Data.set_width (Preset.width p)
  (Data.set_thickness (Preset.thickness p)
  (Data.set_notes (Preset.notes p) d)))))))))))))).

(** The [for (let preset of this.presets)] loop of [applyPreset]: [ps] is the
    part of the prop still to visit.  On the first row whose [preset] key is
    [===] to [this.preset] the row is loaded, [applyParams] runs, and the
    [break] leaves the loop; rows that do not match are skipped. *)
Fixpoint applyPreset_loop (ps : list Preset.t) (c : component) : component :=
  match ps with
  | [] => c
  | p :: rest =>
      if String.eqb (Preset.preset p) (Data.preset (data c))
      then applyParams (with_data (load p (data c)) c)
      else applyPreset_loop rest c
  end.

Definition applyPreset (c : component) : component :=
  applyPreset_loop (presets c) c.

(** The two options written by the [innerHTML] assignment of
    [updatePresetsOptions]. *)
Definition fixed_options : list SelectOption.t :=
  [ SelectOption.mk "" "Please select one" true;
    SelectOption.mk "custom" "custom" false ].

(** The option created for one row: [value] and [innerText] are both the
    row's [preset] key. *)
Definition option_of (p : Preset.t) : SelectOption.t :=
  SelectOption.mk (Preset.preset p) (Preset.preset p) false.

(** The [appendChild] loop of [updatePresetsOptions]. *)
Fixpoint append_options (ps : list Preset.t) (os : list SelectOption.t)
  : list SelectOption.t :=
  match ps with
  | [] => os
  | p :: rest => append_options rest (os ++ [option_of p])
  end.

Definition updatePresetsOptions (c : component) : component :=
  let c1 := with_select (append_options (presets c) fixed_options) c in
  let c2 :=
    match presets c1 with
    | [] => c1
    | first :: _ =>
        applyPreset
          (with_data (Data.set_preset (Preset.preset first) (data c1)) c1)
    end in
  applyParams c2.

Definition downloadsvg (c : component) : component :=
  emit Download c.

(** ** Stimuli

    How the template and the watcher drive the methods. *)

(** The owner replaces the [presets] prop; the watcher calls
    [updatePresetsOptions]. *)
Definition onCatalogReplaced (newCatalog : list Preset.t) (c : component)
  : component :=
  updatePresetsOptions (with_presets newCatalog c).

(** A choice in [<select v-model="preset" @change="applyPreset">]: the model
    is written first, then the handler runs. *)
Definition selectPreset (name : string) (c : component) : component :=
  applyPreset (with_data (Data.set_preset name (data c)) c).

(** The inputs bound with [v-model] and [@change="applyParams"]. *)
Inductive field : Type :=
| scale | notes | thickness | width | height | kerf
| boxC | boxL | boxI | tabC | tabL | tabI | slotC | slotL | slotI
| style.

Definition field_eqb (f g : field) : bool :=
  match f, g with
  | scale, scale | notes, notes | thickness, thickness | width, width
  | height, height | kerf, kerf
  | boxC, boxC | boxL, boxL | boxI, boxI
  | tabC, tabC | tabL, tabL | tabI, tabI
  | slotC, slotC | slotL, slotL | slotI, slotI
  | style, style => true
  | _, _ => false
  end.

Definition get (f : field) (d : Data.t) : value :=
  match f with
  | scale => Data.scale d | notes => Data.notes d
  | thickness => Data.thickness d | width => Data.width d
  | height => Data.height d | kerf => Data.kerf d
  | boxC => Data.boxC d | boxL => Data.boxL d | boxI => Data.boxI d
  | tabC => Data.tabC d | tabL => Data.tabL d | tabI => Data.tabI d
  | slotC => Data.slotC d | slotL => Data.slotL d | slotI => Data.slotI d
  | style => Data.style d
  end.

Definition set (f : field) (v : value) (d : Data.t) : Data.t :=
  match f with
  | scale => Data.set_scale v d | notes => Data.set_notes v d
  | thickness => Data.set_thickness v d | width => Data.set_width v d
  | height => Data.set_height v d | kerf => Data.set_kerf v d
  | boxC => Data.set_boxC v d | boxL => Data.set_boxL v d
  | boxI => Data.set_boxI v d
  | tabC => Data.set_tabC v d | tabL => Data.set_tabL v d
  | tabI => Data.set_tabI v d
  | slotC => Data.set_slotC v d | slotL => Data.set_slotL v d
  | slotI => Data.set_slotI v d
  | style => Data.set_style v d
  end.

(** An edit of one bound input: the model is written on input, and the
    [change] event then calls [applyParams]. *)
Definition editField (f : field) (v : value) (c : component) : component :=
  applyParams (with_data (set f v (data c)) c).

(** The export button. *)
Definition requestExport (c : component) : component := downloadsvg c.

(** The component as created over a given prop, before [mounted] runs: the
    template's two static options are in place ([custom] has an empty value
    there). *)
Definition created (ps : list Preset.t) : component := {|
  presets := ps;
  data := Data.initial;
  select := [ SelectOption.mk "" "Please select one" true;
              SelectOption.mk "" "custom" false ];
  emitted := []
|}.

(** [mounted]: the callback given to [$nextTick]. *)
Definition mounted (c : component) : component := updatePresetsOptions c.

(** ** Vocabulary of the statements *)

(** The names of a catalog, in catalog order. *)
Definition names (ps : list Preset.t) : list string :=
  map Preset.preset ps.

(** The first row of [ps] whose [preset] key is [n]. *)
Definition first_named (n : string) (ps : list Preset.t) : option Preset.t :=
  find (fun p => String.eqb (Preset.preset p) n) ps.

(** The fifteen preset-controlled fields of the data equal those of row [p]. *)
Definition bound_to (d : Data.t) (p : Preset.t) : Prop :=
  Data.notes d = Preset.notes p /\
  Data.thickness d = Preset.thickness p /\
  Data.width d = Preset.width p /\
  Data.height d = Preset.height p /\
  Data.kerf d = Preset.kerf p /\
  Data.boxC d = Preset.boxC p /\
  Data.boxL d = Preset.boxL p /\
  Data.boxI d = Preset.boxI p /\
  Data.tabC d = Preset.tabC p /\
  Data.tabL d = Preset.tabL p /\
  Data.tabI d = Preset.tabI p /\
  Data.slotC d = Preset.slotC p /\
  Data.slotL d = Preset.slotL p /\
  Data.slotI d = Preset.slotI p /\
  Data.style d = Preset.style p.

(** Payload [s] carries every one of the seventeen data fields with the value
    it has in [d]. *)
Definition reflects (s : Snapshot.t) (d : Data.t) : Prop :=
  Snapshot.preset s = Data.preset d /\
  Snapshot.scale s = Data.scale d /\
  Snapshot.notes s = Data.notes d /\
  Snapshot.thickness s = Data.thickness d /\
  Snapshot.width s = Data.width d /\
  Snapshot.height s = Data.height d /\
  Snapshot.kerf s = Data.kerf d /\
  Snapshot.boxC s = Data.boxC d /\
  Snapshot.boxL s = Data.boxL d /\
  Snapshot.boxI s = Data.boxI d /\
  Snapshot.tabC s = Data.tabC d /\
  Snapshot.tabL s = Data.tabL d /\
  Snapshot.tabI s = Data.tabI d /\
  Snapshot.slotC s = Data.slotC d /\
  Snapshot.slotL s = Data.slotL d /\
  Snapshot.slotI s = Data.slotI d /\
  Snapshot.style s = Data.style d.

(** The values a user can pick in the drop-down: those of the options that
    are not disabled, in document order. *)
Definition selectable (os : list SelectOption.t) : list string :=
  map SelectOption.value
      (filter (fun o => negb (SelectOption.disabled o)) os).

(** ** Sample data *)

(** The row of the specification's Scenario A; keys it leaves open are given
    plain values. *)
Definition ply3mm : Preset.t := {|
  Preset.preset := "ply3mm";
  Preset.notes := VString "3mm plywood";
  Preset.thickness := VNumber 3%float;
  Preset.width := VNumber 450%float;
  Preset.height := VNumber 300%float;
  Preset.kerf := VNumber 0.1%float;
  Preset.boxC := VNumber 0.01%float;
  Preset.boxL := VNumber 0.02%float;
  Preset.boxI := VNumber 0.03%float;
  Preset.tabC := VNumber 0.04%float;
  Preset.tabL := VNumber 0.05%float;
  Preset.tabI := VNumber 0.06%float;
  Preset.slotC := VNumber 0.07%float;
  Preset.slotL := VNumber 0.08%float;
  Preset.slotI := VNumber 0.09%float;
  Preset.style := VString "stroke:#000000;"
|}.

(** A second row, and a later row that reuses the name [ply3mm]. *)
Definition acrylic6mm : Preset.t := {|
  Preset.preset := "acrylic6mm";
  Preset.notes := VString "cast acrylic";
  Preset.thickness := VNumber 6%float;
  Preset.width := VNumber 600%float;
  Preset.height := VNumber 400%float;
  Preset.kerf := VNumber 0.2%float;
  Preset.boxC := VNumber 0%float;
  Preset.boxL := VNumber 0%float;
  Preset.boxI := VNumber 0%float;
  Preset.tabC := VNumber 0%float;
  Preset.tabL := VNumber 0%float;
  Preset.tabI := VNumber 0%float;
  Preset.slotC := VNumber 0%float;
  Preset.slotL := VNumber 0%float;
  Preset.slotI := VNumber 0%float;
  Preset.style := VString "stroke:#0000ff;"
|}.

Definition ply3mm_again : Preset.t := {|
  Preset.preset := "ply3mm";
  Preset.notes := VString "duplicate row";
  Preset.thickness := VNumber 4%float;
  Preset.width := VNumber 100%float;
  Preset.height := VNumber 100%float;
  Preset.kerf := VNumber 0.3%float;
  Preset.boxC := VNumber 1%float;
  Preset.boxL := VNumber 1%float;
  Preset.boxI := VNumber 1%float;
  Preset.tabC := VNumber 1%float;
  Preset.tabL := VNumber 1%float;
  Preset.tabI := VNumber 1%float;
  Preset.slotC := VNumber 1%float;
  Preset.slotL := VNumber 1%float;
  Preset.slotI := VNumber 1%float;
  Preset.style := VString "stroke:#00ff00;"
|}.

(** A row whose name is the drop-down's fixed entry. *)
Definition row_named_custom : Preset.t := {|
  Preset.preset := "custom";
  Preset.notes := VString "a row called custom";
  Preset.thickness := VNumber 9%float;
  Preset.width := VNumber 900%float;
  Preset.height := VNumber 900%float;
  Preset.kerf := VNumber 0.9%float;
  Preset.boxC := VNumber 9%float;
  Preset.boxL := VNumber 9%float;
  Preset.boxI := VNumber 9%float;
  Preset.tabC := VNumber 9%float;
  Preset.tabL := VNumber 9%float;
  Preset.tabI := VNumber 9%float;
  Preset.slotC := VNumber 9%float;
  Preset.slotL := VNumber 9%float;
  Preset.slotI := VNumber 9%float;
  Preset.style := VString "stroke:#999999;"
|}.

(** Scenario A: the panel is created with no rows and mounted, then the
    owner supplies the one-row catalog. *)
Definition scenarioA : component :=
  onCatalogReplaced [ply3mm] (mounted (created [])).

(** A test that tells two numbers apart; used to separate sample values. *)
Definition is_number (x : float) (v : value) : bool :=
  match v with
  | VNumber y => PrimFloat.eqb y x
  | _ => false
  end.

(** ** Sequences of stimuli

    The panel is driven by the browser's event loop: each event of the
    template (a choice in the drop-down, a change of a bound input, a click on
    the export button) and each replacement of the prop runs its handler to
    completion before the next one is looked at. *)

Inductive stimulus : Type :=
| CatalogReplaced (newCatalog : list Preset.t)
| PresetSelected (name : string)
| FieldEdited (f : field) (v : value)
| ExportRequested.

Definition handle (s : stimulus) (c : component) : component :=
  match s with
  | CatalogReplaced newCatalog => onCatalogReplaced newCatalog c
  | PresetSelected name => selectPreset name c
  | FieldEdited f v => editField f v c
  | ExportRequested => requestExport c
  end.

Definition run (ss : list stimulus) (c : component) : component :=
  fold_left (fun c' s => handle s c') ss c.

(** The states the panel passes through, one per stimulus. *)
Fixpoint trajectory (ss : list stimulus) (c : component) : list component :=
  match ss with
  | [] => []
  | s :: rest => handle s c :: trajectory rest (handle s c)
  end.

(** A sequence of edits, as stimuli. *)
Definition edits (es : list (field * value)) : list stimulus :=
  map (fun e => FieldEdited (fst e) (snd e)) es.

(** ** Reading the event log *)

(** The payload of the most recent ["update"] event, if there is one: what
    the owner of the panel last heard. *)
Definition last_update (evs : list event) : option Snapshot.t :=
  fold_left (fun acc e => match e with Update s => Some s | Download => acc end)
            evs None.

Definition is_download (e : event) : bool :=
  match e with Download => true | Update _ => false end.

Definition count_downloads (evs : list event) : nat :=
  length (filter is_download evs).

Definition is_export (s : stimulus) : bool :=
  match s with ExportRequested => true | _ => false end.



(** The drop-down mirrors the prop: the two fixed options, then one option
    per row. *)
Definition options_mirror_catalog (c : component) : Prop :=
  select c = fixed_options ++ map option_of (presets c).

(** The catalog in force after a sequence of stimuli that started with
    catalog [c0]: the last one supplied, if any. *)
Definition last_catalog (ss : list stimulus) (c0 : list Preset.t)
  : list Preset.t :=
  fold_left (fun acc s => match s with
                          | CatalogReplaced newCatalog => newCatalog
                          | _ => acc
                          end) ss c0.

(** The scale factor last typed in a sequence of stimuli that started with
    scale [v0]. *)
Definition last_scale (ss : list stimulus) (v0 : value) : value :=
  fold_left (fun acc s => match s with
                          | FieldEdited scale v => v
                          | _ => acc
                          end) ss v0.

(** What one stimulus appends to the event log, and the data it leaves. *)
Definition events_of (s : stimulus) (c : component) : list event :=
  match s with
  | CatalogReplaced [] => [Update (snapshot (data c))]
  | CatalogReplaced (p :: _) =>
      let d := load p (Data.set_preset (Preset.preset p) (data c)) in
      [Update (snapshot d); Update (snapshot d)]
  | PresetSelected name =>
      match first_named name (presets c) with
      | Some p => [Update (snapshot (load p (Data.set_preset name (data c))))]
      | None => []
      end
  | FieldEdited f v => [Update (snapshot (set f v (data c)))]
  | ExportRequested => [Download]
  end.

Definition data_after (s : stimulus) (c : component) : Data.t :=
  match s with
  | CatalogReplaced [] => data c
  | CatalogReplaced (p :: _) =>
      load p (Data.set_preset (Preset.preset p) (data c))
  | PresetSelected name =>
      match first_named name (presets c) with
      | Some p => load p (Data.set_preset name (data c))
      | None => Data.set_preset name (data c)
      end
  | FieldEdited f v => set f v (data c)
  | ExportRequested => data c
  end.

(** Two values are told apart by evaluating a test on both. *)
Ltac told_apart_by test :=
  let H := fresh "H" in
  intro H; apply (f_equal test) in H; vm_compute in H; discriminate H.

(** ** Basic facts about the methods *)

Section Loop.

Variable c : component.

(** The loop of [applyPreset] is a search for the first matching row. *)
Lemma applyPreset_loop_first_named (ps : list Preset.t) :
  applyPreset_loop ps c =
  match first_named (Data.preset (data c)) ps with
  | Some p => applyParams (with_data (load p (data c)) c)
  | None => c
  end.
Proof.
  unfold first_named.
  induction ps as [|p rest IH]; cbn [applyPreset_loop find].
  - reflexivity.
  - destruct (String.eqb (Preset.preset p) (Data.preset (data c)));
      [reflexivity | exact IH].
Qed.

End Loop.

Lemma selectPreset_first_named (n : string) (c : component) :
  selectPreset n c =
  match first_named n (presets c) with
  | Some p =>
      applyParams (with_data (load p (Data.set_preset n (data c))) c)
  | None => with_data (Data.set_preset n (data c)) c
  end.
Proof.
  unfold selectPreset, applyPreset.
  rewrite applyPreset_loop_first_named.
  cbn [presets data with_data Data.preset Data.set_preset].
  destruct (first_named n (presets c)); reflexivity.
Qed.

(** A row preceded only by rows of other names is the first of its name. *)
Lemma first_named_app (before after : list Preset.t) (p : Preset.t) :
  ~ In (Preset.preset p) (names before) ->
  first_named (Preset.preset p) (before ++ p :: after) = Some p.
Proof.
  unfold first_named, names.
  induction before as [|q before IH]; cbn [app find map In]; intros Hnot.
  - now rewrite String.eqb_refl.
  - destruct (String.eqb_spec (Preset.preset q) (Preset.preset p)) as [E|_].
    + exfalso. apply Hnot. now left.
    + apply IH. intros Hin. apply Hnot. now right.
Qed.

(** With pairwise distinct names every row is the first of its name. *)
Lemma first_named_unique (ps : list Preset.t) (p : Preset.t) :
  NoDup (names ps) -> In p ps ->
  first_named (Preset.preset p) ps = Some p.
Proof.
  intros Hnd Hin.
  destruct (in_split _ _ Hin) as (before & after & ->).
  apply first_named_app.
  unfold names in Hnd. rewrite map_app in Hnd. cbn [map] in Hnd.
  apply NoDup_remove_2 in Hnd.
  intros Hb. apply Hnd. apply in_or_app. now left.
Qed.

Lemma first_named_absent (n : string) (ps : list Preset.t) :
  ~ In n (names ps) -> first_named n ps = None.
Proof.
  unfold first_named, names.
  induction ps as [|q ps IH]; cbn [find map In]; intros Hnot.
  - reflexivity.
  - destruct (String.eqb_spec (Preset.preset q) n) as [E|_].
    + exfalso. apply Hnot. now left.
    + apply IH. intros Hin. apply Hnot. now right.
Qed.

(** Whether a row of a given name exists decides whether the search
    succeeds. *)
Lemma first_named_existsb (n : string) (ps : list Preset.t) :
  existsb (String.eqb n) (names ps) =
  match first_named n ps with Some _ => true | None => false end.
Proof.
  unfold first_named, names.
  induction ps as [|q ps IH]; cbn [find map existsb].
  - reflexivity.
  - rewrite (String.eqb_sym n).
    destruct (String.eqb (Preset.preset q) n); [reflexivity | exact IH].
Qed.

(** Loading a row makes the data bound to it. *)
Lemma load_bound_to (p : Preset.t) (d : Data.t) : bound_to (load p d) p.
Proof. repeat split. Qed.

(** Loading a row writes neither [scale] nor [preset]. *)
Lemma load_scale (p : Preset.t) (d : Data.t) :
  Data.scale (load p d) = Data.scale d.
Proof. reflexivity. Qed.

Lemma load_preset (p : Preset.t) (d : Data.t) :
  Data.preset (load p d) = Data.preset d.
Proof. reflexivity. Qed.

(** The payload built by [applyParams] mirrors the data it is built from. *)
Lemma snapshot_reflects (d : Data.t) : reflects (snapshot d) d.
Proof. repeat split. Qed.

(** The option loop appends one option per row, in order. *)
Lemma append_options_map (ps : list Preset.t) (os : list SelectOption.t) :
  append_options ps os = os ++ map option_of ps.
Proof.
  revert os.
  induction ps as [|p rest IH]; intros os; cbn [append_options map].
  - now rewrite app_nil_r.
  - rewrite IH, <- app_assoc. reflexivity.
Qed.

Lemma select_updatePresetsOptions (c : component) :
  select (updatePresetsOptions c) =
  fixed_options ++ map option_of (presets c).
Proof.
  unfold updatePresetsOptions.
  cbn [presets with_select].
  destruct (presets c) as [|first rest] eqn:E.
  - reflexivity.
  - unfold applyPreset. rewrite applyPreset_loop_first_named.
    match goal with
    | |- context [first_named ?n ?l] => destruct (first_named n l)
    end; cbn; now rewrite append_options_map.
Qed.

Lemma selectable_options_of (ps : list Preset.t) :
  selectable (fixed_options ++ map option_of ps) = "custom" :: names ps.
Proof.
  unfold selectable, names. cbn. f_equal.
  induction ps as [|p rest IH]; cbn; [reflexivity | now f_equal].
Qed.

(** What a non-empty replacement does, in one equation: the options are
    rebuilt, the first row is selected and loaded, and [applyParams] runs
    twice, once at the end of [applyPreset] and once at the end of
    [updatePresetsOptions]. *)
Lemma onCatalogReplaced_cons (p : Preset.t) (ps : list Preset.t)
      (c : component) :
  onCatalogReplaced (p :: ps) c =
  let d := load p (Data.set_preset (Preset.preset p) (data c)) in
  {| presets := p :: ps;
     data := d;
     select := append_options (p :: ps) fixed_options;
     emitted := (emitted c ++ [Update (snapshot d)]) ++ [Update (snapshot d)]
  |}.
Proof.
  unfold onCatalogReplaced, updatePresetsOptions, applyPreset.
  cbn [presets with_presets with_select with_data applyPreset_loop data
       Data.preset Data.set_preset].
  rewrite String.eqb_refl. reflexivity.
Qed.

Lemma onCatalogReplaced_nil (c : component) :
  onCatalogReplaced [] c =
  {| presets := [];
     data := data c;
     select := fixed_options;
     emitted := emitted c ++ [Update (snapshot (data c))] |}.
Proof. reflexivity. Qed.

Lemma editField_preset (f : field) (v : value) (c : component) :
  Data.preset (data (editField f v c)) = Data.preset (data c).
Proof. destruct f; reflexivity. Qed.

Lemma get_set_preset (f : field) (n : string) (d : Data.t) :
  get f (Data.set_preset n d) = get f d.
Proof. destruct f; reflexivity. Qed.


(** ** The methods on sample inputs *)

Example mounted_without_rows :
  mounted (created []) =
  {| presets := [];
     data := Data.initial;
     select := fixed_options;
     emitted := [Update (snapshot Data.initial)] |}.
Proof. reflexivity. Qed.

Example scenarioA_loaded :
  Data.thickness (data scenarioA) = VNumber 3%float /\
  Data.preset (data scenarioA) = "ply3mm" /\
  Data.scale (data scenarioA) = VNumber 1%float /\
  selectable (select scenarioA) = ["custom"; "ply3mm"].
Proof. repeat apply conj; vm_compute; reflexivity. Qed.

Example duplicate_name_loads_first_row :
  let c := with_presets [acrylic6mm; ply3mm; ply3mm_again] scenarioA in
  Data.notes (data (selectPreset "ply3mm" c)) = VString "3mm plywood".
Proof. vm_compute. reflexivity. Qed.

(** The export button emits ["download"] and touches nothing else. *)
Lemma requestExport_state_neutral (c : component) :
  data (requestExport c) = data c /\
  presets (requestExport c) = presets c /\
  select (requestExport c) = select c /\
  emitted (requestExport c) = emitted c ++ [Download].
Proof. repeat split. Qed.

(** ** Selecting a preset *)

(** C1.  When the catalog's names are pairwise distinct and [P] is one of its
    rows, selecting [P]'s name copies [notes], [thickness], [width] (sheet
    width), [height] (sheet height), [kerf], the nine joint-fit components and
    [style] from [P] into the data, and the selected name is [P]'s name. *)
Theorem selectPreset_bound_fidelity (c : component) (P : Preset.t) :
  NoDup (names (presets c)) ->
  In P (presets c) ->
  bound_to (data (selectPreset (Preset.preset P) c)) P /\
  Data.preset (data (selectPreset (Preset.preset P) c)) = Preset.preset P.
Proof.
  intros Hnd Hin.
  rewrite selectPreset_first_named, (first_named_unique _ _ Hnd Hin).
  split; [apply load_bound_to | reflexivity].
Qed.

Lemma selectPreset_bound_fidelity_witness :
  let c := onCatalogReplaced [ply3mm; acrylic6mm] (mounted (created [])) in
  (NoDup (names (presets c)) /\ In acrylic6mm (presets c)) /\
  bound_to (data (selectPreset "acrylic6mm" c)) acrylic6mm /\
  Data.preset (data (selectPreset "acrylic6mm" c)) = "acrylic6mm".
Proof.
  intro c.
  assert (Hnd : NoDup (names (presets c))).
  { vm_compute. repeat constructor; simpl; intuition discriminate. }
  assert (Hin : In acrylic6mm (presets c)).
  { vm_compute. right. left. reflexivity. }
  split; [split; assumption|].
  exact (selectPreset_bound_fidelity c acrylic6mm Hnd Hin).
Defined.

(** C10.  When several rows share a name, selecting that name loads the first
    of them in catalog order: the rows after it play no part, whatever their
    names, in the resulting data or in what is emitted. *)
Theorem selectPreset_first_match_wins
        (before after after' : list Preset.t) (P : Preset.t) (c : component) :
  ~ In (Preset.preset P) (names before) ->
  let run rest :=
    selectPreset (Preset.preset P) (with_presets (before ++ P :: rest) c) in
  bound_to (data (run after)) P /\
  data (run after) = data (run after') /\
  emitted (run after) = emitted (run after').
Proof.
  intros Hnot run. unfold run.
  rewrite !selectPreset_first_named.
  cbn [presets with_presets].
  rewrite !(first_named_app _ _ _ Hnot).
  repeat split.
Qed.

Lemma selectPreset_first_match_wins_witness :
  ~ In "ply3mm" (names [acrylic6mm]) /\
  let run rest :=
    selectPreset "ply3mm" (with_presets (acrylic6mm :: ply3mm :: rest) scenarioA) in
  bound_to (data (run [ply3mm_again; acrylic6mm])) ply3mm /\
  data (run [ply3mm_again; acrylic6mm]) = data (run []) /\
  emitted (run [ply3mm_again; acrylic6mm]) = emitted (run []).
Proof.
  assert (Hnot : ~ In (Preset.preset ply3mm) (names [acrylic6mm])).
  { simpl. intuition discriminate. }
  split; [exact Hnot|].
  exact (selectPreset_first_match_wins
           [acrylic6mm] [ply3mm_again; acrylic6mm] [] ply3mm scenarioA Hnot).
Defined.

(** C6.  A name borne by no row of the catalog (in particular one that is
    not [custom] either) loads nothing: all sixteen editable fields keep
    their values and nothing is emitted. *)
Theorem selectPreset_unknown_name (name : string) (c : component) :
  ~ In name (names (presets c)) ->
  (forall f, get f (data (selectPreset name c)) = get f (data c)) /\
  emitted (selectPreset name c) = emitted c.
Proof.
  intros Hnot.
  rewrite selectPreset_first_named, (first_named_absent _ _ Hnot).
  split; [intros f; apply get_set_preset | reflexivity].
Qed.

Lemma selectPreset_unknown_name_witness :
  ~ In "nonexistent" (names (presets scenarioA)) /\
  (forall f, get f (data (selectPreset "nonexistent" scenarioA))
             = get f (data scenarioA)) /\
  emitted (selectPreset "nonexistent" scenarioA) = emitted scenarioA.
Proof.
  assert (Hnot : ~ In "nonexistent" (names (presets scenarioA))).
  { vm_compute. intuition discriminate. }
  split; [exact Hnot|].
  exact (selectPreset_unknown_name "nonexistent" scenarioA Hnot).
Defined.

(** C5, as the code has it.  When no row of the catalog is itself named
    [custom], selecting [custom] sets the selected name to [custom] and
    leaves [scale], [notes], [thickness], [width], [height], [kerf], the nine
    joint-fit components and [style] as they were. *)
Theorem selectPreset_custom_detaches (c : component) :
  ~ In "custom" (names (presets c)) ->
  Data.preset (data (selectPreset "custom" c)) = "custom" /\
  forall f, get f (data (selectPreset "custom" c)) = get f (data c).
Proof.
  intros Hnot.
  rewrite selectPreset_first_named, (first_named_absent _ _ Hnot).
  split; [reflexivity | intros f; apply get_set_preset].
Qed.

Lemma selectPreset_custom_detaches_witness :
  ~ In "custom" (names (presets scenarioA)) /\
  Data.preset (data (selectPreset "custom" scenarioA)) = "custom" /\
  forall f, get f (data (selectPreset "custom" scenarioA))
            = get f (data scenarioA).
Proof.
  assert (Hnot : ~ In "custom" (names (presets scenarioA))).
  { vm_compute. intuition discriminate. }
  split; [exact Hnot|].
  exact (selectPreset_custom_detaches scenarioA Hnot).
Defined.

(** C5, as stated, fails when a row of the catalog is named [custom]:
    selecting [custom] then loads that row, so a panel showing [ply3mm]'s
    thickness 3 shows 9 afterwards. *)
Lemma selectPreset_custom_overwrites :
  let c := onCatalogReplaced [ply3mm; row_named_custom] (mounted (created [])) in
  Data.thickness (data c) = VNumber 3%float /\
  Data.thickness (data (selectPreset "custom" c)) = VNumber 9%float /\
  get thickness (data (selectPreset "custom" c)) <> get thickness (data c).
Proof.
  intro c. repeat split.
  told_apart_by (is_number 3%float).
Qed.

(** ** Replacing the catalog *)

(** C4.  Replacing the catalog by a non-empty one selects and loads its first
    row: the fifteen preset-controlled fields equal those of the first row and
    the selected name is the first row's name. *)
Theorem onCatalogReplaced_selects_first
        (P1 : Preset.t) (rest : list Preset.t) (c : component) :
  bound_to (data (onCatalogReplaced (P1 :: rest) c)) P1 /\
  Data.preset (data (onCatalogReplaced (P1 :: rest) c)) = Preset.preset P1.
Proof.
  rewrite onCatalogReplaced_cons. cbn [data].
  split; [apply load_bound_to | reflexivity].
Qed.

(** C7.  Replacing the catalog by the empty one leaves the whole data record,
    selected name included, as it was. *)
Theorem onCatalogReplaced_empty_keeps_data (c : component) :
  data (onCatalogReplaced [] c) = data c.
Proof. reflexivity. Qed.

(** C9.  After a replacement the drop-down holds the disabled prompt, then
    [custom], then one option per row; what it offers for selection is thus
    [custom] followed by the catalog's names in catalog order.  A second
    replacement by a catalog with the same names in the same order rebuilds
    the very same options. *)
Theorem onCatalogReplaced_options
        (catalog catalog' : list Preset.t) (c : component) :
  names catalog = names catalog' ->
  select (onCatalogReplaced catalog c)
  = fixed_options ++ map option_of catalog /\
  selectable (select (onCatalogReplaced catalog c)) = "custom" :: names catalog /\
  select (onCatalogReplaced catalog' (onCatalogReplaced catalog c))
  = select (onCatalogReplaced catalog c).
Proof.
  intros Hnames. unfold onCatalogReplaced.
  rewrite !select_updatePresetsOptions. cbn [presets with_presets].
  split; [reflexivity|].
  split; [apply selectable_options_of|].
  f_equal. unfold option_of.
  rewrite <- (map_map Preset.preset (fun n => SelectOption.mk n n false)).
  rewrite <- (map_map Preset.preset (fun n => SelectOption.mk n n false) catalog).
  fold (names catalog) (names catalog'). now rewrite Hnames.
Qed.

Lemma onCatalogReplaced_options_witness :
  names [ply3mm; acrylic6mm] = names [ply3mm_again; acrylic6mm] /\
  let c := mounted (created []) in
  select (onCatalogReplaced [ply3mm; acrylic6mm] c)
  = fixed_options ++ map option_of [ply3mm; acrylic6mm] /\
  selectable (select (onCatalogReplaced [ply3mm; acrylic6mm] c))
  = ["custom"; "ply3mm"; "acrylic6mm"] /\
  select (onCatalogReplaced [ply3mm_again; acrylic6mm]
            (onCatalogReplaced [ply3mm; acrylic6mm] c))
  = select (onCatalogReplaced [ply3mm; acrylic6mm] c).
Proof.
  assert (Hnames : names [ply3mm; acrylic6mm] = names [ply3mm_again; acrylic6mm])
    by reflexivity.
  split; [exact Hnames|].
  exact (onCatalogReplaced_options
           [ply3mm; acrylic6mm] [ply3mm_again; acrylic6mm]
           (mounted (created [])) Hnames).
Defined.

(** ** The scale factor *)

(** C8.  No preset path writes [scale]: selecting any name and replacing the
    catalog by any catalog leave it as it was, and so does the export button.
    An edit changes it exactly when the edited field is [scale]. *)
Theorem scale_independent_of_presets (c : component) :
  (forall name, Data.scale (data (selectPreset name c)) = Data.scale (data c)) /\
  (forall catalog,
      Data.scale (data (onCatalogReplaced catalog c)) = Data.scale (data c)) /\
  Data.scale (data (requestExport c)) = Data.scale (data c) /\
  (forall f v,
      Data.scale (data (editField f v c))
      = if field_eqb f scale then v else Data.scale (data c)).
Proof.
  repeat split.
  - intros name. rewrite selectPreset_first_named.
    destruct (first_named name (presets c)); reflexivity.
  - intros [|p ps].
    + reflexivity.
    + rewrite onCatalogReplaced_cons. reflexivity.
  - intros f v. destruct f; reflexivity.
Qed.

(** ** Emission *)

(** C3, as the code has it.  The payload of an ["update"] event carries all
    seventeen data fields, selected name and scale included, with the values
    the data has when it is emitted.  An edit appends exactly one such event.
    Selecting a name appends exactly one when a row of the catalog bears that
    name and none otherwise.  Replacing the catalog appends one for an empty
    catalog and two, with the same payload, for a non-empty one.  In every
    case the payload is that of the data the operation ends in. *)
Theorem update_events (c : component) :
  (forall d, reflects (snapshot d) d) /\
  (forall f v,
      emitted (editField f v c)
      = emitted c ++ [Update (snapshot (data (editField f v c)))]) /\
  (forall name,
      emitted (selectPreset name c)
      = emitted c ++
        if existsb (String.eqb name) (names (presets c))
        then [Update (snapshot (data (selectPreset name c)))]
        else []) /\
  emitted (onCatalogReplaced [] c)
  = emitted c ++ [Update (snapshot (data (onCatalogReplaced [] c)))] /\
  (forall P1 rest,
      emitted (onCatalogReplaced (P1 :: rest) c)
      = emitted c ++
        [Update (snapshot (data (onCatalogReplaced (P1 :: rest) c)));
         Update (snapshot (data (onCatalogReplaced (P1 :: rest) c)))]).
Proof.
  split; [exact snapshot_reflects|].
  split; [reflexivity|].
  split.
  - intros name.
    rewrite first_named_existsb, selectPreset_first_named.
    destruct (first_named name (presets c)); cbn.
    + reflexivity.
    + now rewrite app_nil_r.
  - split; [reflexivity|].
    intros P1 rest. rewrite onCatalogReplaced_cons. cbn.
    now rewrite <- app_assoc.
Qed.

(** C3, as stated, fails twice over.  Selecting [custom] in Scenario A emits
    nothing, and loading the one-row catalog of Scenario A emits two events,
    not one. *)
Lemma update_events_not_exactly_one :
  emitted (selectPreset "custom" scenarioA) = emitted scenarioA /\
  length (emitted (selectPreset "custom" scenarioA))
  = length (emitted scenarioA) + 0 /\
  length (emitted (onCatalogReplaced [ply3mm] (mounted (created []))))
  = length (emitted (mounted (created []))) + 2.
Proof. repeat apply conj; vm_compute; reflexivity. Qed.

(** ** Editing a field *)

(** C2, evaluated on the code.  In Scenario A the panel is bound to [ply3mm],
    whose thickness is 3.  Editing the thickness to 5 stores 5 and emits a
    payload with thickness 5, yet the selected name is still [ply3mm] in the
    data and in the payload: it has not become [custom]. *)
Theorem editField_keeps_selected_name :
  let c := editField thickness (VNumber 5%float) scenarioA in
  (bound_to (data scenarioA) ply3mm /\
   Data.preset (data scenarioA) = "ply3mm") /\
  VNumber 5%float <> Preset.thickness ply3mm /\
  Data.thickness (data c) = VNumber 5%float /\
  Data.preset (data c) = "ply3mm" /\
  Data.preset (data c) <> "custom" /\
  last (emitted c) Download
  = Update (snapshot (Data.set_thickness (VNumber 5%float) (data scenarioA))).
Proof.
  intro c. repeat apply conj; try (vm_compute; reflexivity).
  - told_apart_by (is_number 3%float).
  - vm_compute. discriminate.
Qed.


(** ** One stimulus at a time *)

Lemma handle_emitted (s : stimulus) (c : component) :
  emitted (handle s c) = emitted c ++ events_of s c.
Proof.
  destruct s as [[|p ps]|name|f v|]; cbn [handle events_of].
  - reflexivity.
  - rewrite onCatalogReplaced_cons. cbn. now rewrite <- app_assoc.
  - rewrite selectPreset_first_named.
    destruct (first_named name (presets c)); cbn;
      [reflexivity | now rewrite app_nil_r].
  - reflexivity.
  - reflexivity.
Qed.

Lemma handle_data (s : stimulus) (c : component) :
  data (handle s c) = data_after s c.
Proof.
  destruct s as [[|p ps]|name|f v|]; cbn [handle data_after].
  - reflexivity.
  - rewrite onCatalogReplaced_cons. reflexivity.
  - rewrite selectPreset_first_named.
    destruct (first_named name (presets c)); reflexivity.
  - reflexivity.
  - reflexivity.
Qed.

Lemma handle_presets (s : stimulus) (c : component) :
  presets (handle s c) =
  match s with CatalogReplaced newCatalog => newCatalog | _ => presets c end.
Proof.
  destruct s as [[|p ps]|name|f v|]; cbn [handle].
  - reflexivity.
  - rewrite onCatalogReplaced_cons. reflexivity.
  - rewrite selectPreset_first_named.
    destruct (first_named name (presets c)); reflexivity.
  - reflexivity.
  - reflexivity.
Qed.

Lemma handle_select (s : stimulus) (c : component) :
  select (handle s c) =
  match s with
  | CatalogReplaced newCatalog => fixed_options ++ map option_of newCatalog
  | _ => select c
  end.
Proof.
  destruct s as [cat|name|f v|]; cbn [handle].
  - unfold onCatalogReplaced. now rewrite select_updatePresetsOptions.
  - rewrite selectPreset_first_named.
    destruct (first_named name (presets c)); reflexivity.
  - reflexivity.
  - reflexivity.
Qed.

Lemma run_cons (s : stimulus) (ss : list stimulus) (c : component) :
  run (s :: ss) c = run ss (handle s c).
Proof. reflexivity. Qed.




Lemma count_downloads_app (evs evs' : list event) :
  count_downloads (evs ++ evs') = count_downloads evs + count_downloads evs'.
Proof. unfold count_downloads. now rewrite filter_app, length_app. Qed.

Lemma count_downloads_events_of (s : stimulus) (c : component) :
  count_downloads (events_of s c) = if is_export s then 1 else 0.
Proof.
  destruct s as [[|p ps]|name|f v|]; cbn [events_of is_export];
    try reflexivity.
  destruct (first_named name (presets c)); reflexivity.
Qed.


Lemma handle_options_mirror_catalog (s : stimulus) (c : component) :
  options_mirror_catalog c -> options_mirror_catalog (handle s c).
Proof.
  unfold options_mirror_catalog. intros Hc.
  rewrite handle_select, handle_presets.
  destruct s; [reflexivity | exact Hc ..].
Qed.


Lemma presets_updatePresetsOptions (c : component) :
  presets (updatePresetsOptions c) = presets c.
Proof.
  change (updatePresetsOptions c)
    with (handle (CatalogReplaced (presets c))
                 (mkComponent (presets c) (data c) (select c) (emitted c))).
  now rewrite handle_presets.
Qed.

Lemma mounted_options_mirror_catalog (c : component) :
  options_mirror_catalog (mounted c).
Proof.
  unfold options_mirror_catalog, mounted.
  now rewrite select_updatePresetsOptions, presets_updatePresetsOptions.
Qed.

Lemma events_of_current (s : stimulus) (c : component) :
  Forall (fun e => e = Download \/ e = Update (snapshot (data (handle s c))))
         (events_of s c).
Proof.
  rewrite handle_data.
  destruct s as [[|p ps]|name|f v|]; cbn [events_of data_after].
  - constructor; [now right | constructor].
  - constructor; [now right | constructor; [now right | constructor]].
  - destruct (first_named name (presets c));
      [constructor; [now right | constructor] | constructor].
  - constructor; [now right | constructor].
  - constructor; [now left | constructor].
Qed.

Lemma first_named_present (n : string) (ps : list Preset.t) :
  In n (names ps) -> exists p, first_named n ps = Some p.
Proof.
  intros Hin.
  destruct (first_named n ps) as [p|] eqn:E; [now exists p|].
  exfalso.
  assert (Hex : existsb (String.eqb n) (names ps) = true).
  { apply existsb_exists. exists n. split; [exact Hin | apply String.eqb_refl]. }
  rewrite first_named_existsb, E in Hex. discriminate Hex.
Qed.

Lemma load_after_load (p : Preset.t) (n : string) (d : Data.t) :
  load p (Data.set_preset n (load p (Data.set_preset n d)))
  = load p (Data.set_preset n d).
Proof. destruct d, p. vm_compute. reflexivity. Qed.

Lemma load_same_scale (p : Preset.t) (n : string) (d d' : Data.t) :
  Data.scale d = Data.scale d' ->
  load p (Data.set_preset n d) = load p (Data.set_preset n d').
Proof.
  intros Hs. destruct d, d', p. cbn [Data.scale] in Hs. subst.
  vm_compute. reflexivity.
Qed.

(** ** Editing fields *)

(** X1.  An edit stores its value in the edited field and in no other: every
    other editable field, the selected name, the catalog and the drop-down are
    as before. *)
Theorem editField_writes_one_field (f : field) (v : value) (c : component) :
  (forall g, get g (data (editField f v c))
             = if field_eqb g f then v else get g (data c)) /\
  Data.preset (data (editField f v c)) = Data.preset (data c) /\
  presets (editField f v c) = presets c /\
  select (editField f v c) = select c.
Proof.
  split; [|destruct f; repeat split].
  intros g. destruct f, g; reflexivity.
Qed.

(** X2.  However many fields are edited, and to whatever values, the selected
    preset name stays what it was: no edit detaches the panel from its preset
    or re-attaches it to another. *)
Theorem edits_keep_selected_name (es : list (field * value)) (c : component) :
  Data.preset (data (run (edits es) c)) = Data.preset (data c).
Proof.
  revert c. induction es as [|[f v] es IH]; intros c.
  - reflexivity.
  - cbn [edits map fst snd]. rewrite run_cons. fold (edits es).
    rewrite IH. cbn [handle]. apply editField_preset.
Qed.

(** X3.  Edits are not batched: a sequence of edits appends one ["update"]
    event per edit, in order, and the payload of the k-th is the snapshot of
    the data as it stands after the k-th edit. *)
Theorem edits_emit_one_snapshot_each (es : list (field * value))
        (c : component) :
  emitted (run (edits es) c)
  = emitted c ++ map (fun c' => Update (snapshot (data c')))
                     (trajectory (edits es) c) /\
  length (trajectory (edits es) c) = length es.
Proof.
  revert c. induction es as [|[f v] es IH]; intros c.
  - cbn. now rewrite app_nil_r.
  - cbn [edits map fst snd trajectory length]. rewrite run_cons.
    fold (edits es). destruct (IH (handle (FieldEdited f v) c)) as [He Hl].
    rewrite He, Hl. split; [|reflexivity].
    cbn [handle]. unfold editField at 1, applyParams at 1, emit at 1.
    cbn [emitted]. now rewrite <- app_assoc.
Qed.

(** ** The event log across any sequence of stimuli *)

(** X4.  The log is append-only and never stale: whatever the stimuli, the
    events already emitted stay in place, and every event added is either
    ["download"] or an ["update"] whose payload is the snapshot of the data as
    it stood right after one of the stimuli. *)
Theorem log_grows_by_current_snapshots (ss : list stimulus) (c : component) :
  exists evs,
    emitted (run ss c) = emitted c ++ evs /\
    Forall (fun e => e = Download \/
                     exists c', In c' (trajectory ss c) /\
                                e = Update (snapshot (data c'))) evs.
Proof.
  revert c. induction ss as [|s ss IH]; intros c.
  - exists []. split; [cbn; now rewrite app_nil_r | constructor].
  - destruct (IH (handle s c)) as (evs & He & Hall).
    exists (events_of s c ++ evs). rewrite run_cons, He, handle_emitted.
    split; [now rewrite app_assoc|].
    apply Forall_app. split.
    + eapply Forall_impl; [|apply events_of_current].
      intros e [Hd|Hu]; [now left|].
      right. exists (handle s c). split; [now left | exact Hu].
    + eapply Forall_impl; [|exact Hall].
      intros e [Hd|(c' & Hin & Hu)]; [now left|].
      right. exists c'. split; [now right | exact Hu].
Qed.

(** X5.  ["download"] is emitted once per click on the export button and by
    nothing else: over any sequence of stimuli the number of ["download"]
    events grows by the number of export requests in it. *)
Theorem downloads_match_exports (ss : list stimulus) (c : component) :
  count_downloads (emitted (run ss c))
  = count_downloads (emitted c) + length (filter is_export ss).
Proof.
  revert c. induction ss as [|s ss IH]; intros c.
  - cbn. now rewrite PeanoNat.Nat.add_0_r.
  - rewrite run_cons, IH, handle_emitted, count_downloads_app,
      count_downloads_events_of.
    cbn [filter]. destruct (is_export s); cbn [length].
    + now rewrite <- PeanoNat.Nat.add_assoc.
    + now rewrite PeanoNat.Nat.add_0_r.
Qed.

(** ** What holds in every state the panel can reach *)

(** X6.  Once mounted, and whatever happens next, the drop-down mirrors the
    current catalog: the disabled prompt, [custom], then one option per row in
    catalog order, so that what can be selected is [custom] followed by the
    catalog's names. *)
Theorem dropdown_mirrors_catalog (ps : list Preset.t) (ss : list stimulus) :
  options_mirror_catalog (run ss (mounted (created ps))) /\
  selectable (select (run ss (mounted (created ps))))
  = "custom" :: names (presets (run ss (mounted (created ps)))).
Proof.
  assert (H : options_mirror_catalog (run ss (mounted (created ps)))).
  { generalize (mounted_options_mirror_catalog (created ps)).
    generalize (mounted (created ps)) as c.
    induction ss as [|s ss IH]; intros c Hc; [exact Hc|].
    rewrite run_cons. apply IH. now apply handle_options_mirror_catalog. }
  split; [exact H|].
  rewrite H. apply selectable_options_of.
Qed.


(** X8.  The selected name is not covered by X7.  When the owner's last
    payload carries the current name and the user then picks another name
    that no row bears ([custom], typically), the panel records the new name
    but emits nothing: the owner's last payload still carries the old one. *)
Theorem selectPreset_unmatched_leaves_owner_stale
        (name : string) (c : component) (s : Snapshot.t) :
  last_update (emitted c) = Some s ->
  Snapshot.preset s = Data.preset (data c) ->
  name <> Data.preset (data c) ->
  ~ In name (names (presets c)) ->
  last_update (emitted (selectPreset name c)) = Some s /\
  Data.preset (data (selectPreset name c)) = name /\
  Snapshot.preset s <> Data.preset (data (selectPreset name c)).
Proof.
  intros Hlast Hs Hneq Hnot.
  rewrite selectPreset_first_named, (first_named_absent _ _ Hnot).
  cbn [emitted data with_data Data.preset Data.set_preset].
  repeat apply conj; [exact Hlast | reflexivity |].
  rewrite Hs. intros E. apply Hneq. now symmetry.
Qed.

Lemma selectPreset_unmatched_leaves_owner_stale_witness :
  (last_update (emitted scenarioA) = Some (snapshot (data scenarioA)) /\
   Snapshot.preset (snapshot (data scenarioA)) = Data.preset (data scenarioA) /\
   "custom" <> Data.preset (data scenarioA) /\
   ~ In "custom" (names (presets scenarioA))) /\
  last_update (emitted (selectPreset "custom" scenarioA))
  = Some (snapshot (data scenarioA)) /\
  Data.preset (data (selectPreset "custom" scenarioA)) = "custom" /\
  Snapshot.preset (snapshot (data scenarioA))
  <> Data.preset (data (selectPreset "custom" scenarioA)).
Proof.
  assert (H1 : last_update (emitted scenarioA) = Some (snapshot (data scenarioA)))
    by (vm_compute; reflexivity).
  assert (H2 : Snapshot.preset (snapshot (data scenarioA))
               = Data.preset (data scenarioA)) by reflexivity.
  assert (H3 : "custom" <> Data.preset (data scenarioA))
    by (vm_compute; discriminate).
  assert (H4 : ~ In "custom" (names (presets scenarioA)))
    by (vm_compute; intuition discriminate).
  split; [repeat apply conj; assumption|].
  exact (selectPreset_unmatched_leaves_owner_stale
           "custom" scenarioA (snapshot (data scenarioA)) H1 H2 H3 H4).
Defined.

(** ** Replacing the catalog, continued *)

(** X9.  Replacing the catalog by the empty one while a preset is selected
    leaves the selection dangling: the selected name is kept, yet the rebuilt
    drop-down offers only [custom] and no row bears the name any more. *)
Theorem onCatalogReplaced_empty_leaves_name_dangling (c : component) :
  Data.preset (data c) <> "custom" ->
  Data.preset (data (onCatalogReplaced [] c)) = Data.preset (data c) /\
  selectable (select (onCatalogReplaced [] c)) = ["custom"] /\
  ~ In (Data.preset (data (onCatalogReplaced [] c)))
       (selectable (select (onCatalogReplaced [] c))) /\
  first_named (Data.preset (data (onCatalogReplaced [] c)))
              (presets (onCatalogReplaced [] c)) = None.
Proof.
  intros Hneq. rewrite onCatalogReplaced_nil. cbn [data select presets].
  repeat apply conj; try reflexivity.
  cbn. intros [E|[]]. apply Hneq. now symmetry.
Qed.

Lemma onCatalogReplaced_empty_leaves_name_dangling_witness :
  Data.preset (data scenarioA) <> "custom" /\
  Data.preset (data (onCatalogReplaced [] scenarioA)) = "ply3mm" /\
  selectable (select (onCatalogReplaced [] scenarioA)) = ["custom"] /\
  ~ In (Data.preset (data (onCatalogReplaced [] scenarioA)))
       (selectable (select (onCatalogReplaced [] scenarioA))) /\
  first_named (Data.preset (data (onCatalogReplaced [] scenarioA)))
              (presets (onCatalogReplaced [] scenarioA)) = None.
Proof.
  assert (H : Data.preset (data scenarioA) <> "custom")
    by (vm_compute; discriminate).
  split; [exact H|].
  exact (onCatalogReplaced_empty_leaves_name_dangling scenarioA H).
Defined.

(** X10.  Replacing the catalog twice by the same catalog leaves the catalog,
    the data and the drop-down exactly as replacing it once does; only the
    event log differs. *)
Theorem onCatalogReplaced_idempotent (catalog : list Preset.t)
        (c : component) :
  presets (onCatalogReplaced catalog (onCatalogReplaced catalog c))
  = presets (onCatalogReplaced catalog c) /\
  data (onCatalogReplaced catalog (onCatalogReplaced catalog c))
  = data (onCatalogReplaced catalog c) /\
  select (onCatalogReplaced catalog (onCatalogReplaced catalog c))
  = select (onCatalogReplaced catalog c).
Proof.
  destruct catalog as [|p ps].
  - repeat split.
  - rewrite !onCatalogReplaced_cons. cbn [presets data select].
    split; [reflexivity|]. split; [apply load_after_load | reflexivity].
Qed.

(** X11.  The catalog is only ever changed by its owner: after any sequence
    of stimuli the catalog held by the panel is the last one supplied (the
    initial one if none was), row for row. *)
Theorem catalog_is_last_supplied (ss : list stimulus) (c : component) :
  presets (run ss c) = last_catalog ss (presets c).
Proof.
  revert c. induction ss as [|s ss IH]; intros c; [reflexivity|].
  rewrite run_cons, IH, handle_presets. unfold last_catalog.
  destruct s; reflexivity.
Qed.

(** X12.  Over any sequence of stimuli the scale factor is the value of the
    last edit of the scale input (the initial scale if there was none):
    choices of presets, catalog replacements, edits of other fields and
    exports never touch it. *)
Theorem scale_is_last_typed (ss : list stimulus) (c : component) :
  Data.scale (data (run ss c)) = last_scale ss (Data.scale (data c)).
Proof.
  revert c. induction ss as [|s ss IH]; intros c; [reflexivity|].
  rewrite run_cons, IH, handle_data. unfold last_scale. cbn [fold_left].
  f_equal.
  destruct s as [[|p ps]|name|f v|]; cbn [data_after]; try reflexivity.
  - destruct (first_named name (presets c)); reflexivity.
  - destruct f; reflexivity.
Qed.

(** ** Selecting a preset, continued *)

(** X13.  A choice in the drop-down is always recorded as the selected name,
    whether or not a row matches it, and choosing the same name twice in a
    row changes nothing the second time: data, catalog and drop-down are as
    after the first choice. *)
Theorem selectPreset_records_name_idempotent (name : string) (c : component) :
  Data.preset (data (selectPreset name c)) = name /\
  data (selectPreset name (selectPreset name c)) = data (selectPreset name c) /\
  presets (selectPreset name (selectPreset name c))
  = presets (selectPreset name c) /\
  select (selectPreset name (selectPreset name c))
  = select (selectPreset name c).
Proof.
  assert (Hp : presets (selectPreset name c) = presets c)
    by apply (handle_presets (PresetSelected name)).
  rewrite (selectPreset_first_named name (selectPreset name c)), Hp.
  rewrite (selectPreset_first_named name c).
  destruct (first_named name (presets c)) as [p|];
    cbn [data presets select applyParams emit with_data].
  - split; [reflexivity|]. split; [apply load_after_load|].
    split; reflexivity.
  - repeat apply conj; reflexivity.
Qed.

(** X14.  What a matching choice leaves in the data depends on the row and
    on the scale factor only: two panels with the same catalog and the same
    scale end with identical data after the same choice, whatever their
    fields and selected names were before. *)
Theorem selectPreset_forgets_history (name : string) (c c' : component) :
  presets c = presets c' ->
  Data.scale (data c) = Data.scale (data c') ->
  In name (names (presets c)) ->
  data (selectPreset name c) = data (selectPreset name c').
Proof.
  intros Hps Hscale Hin.
  destruct (first_named_present _ _ Hin) as (p & Hp).
  rewrite !selectPreset_first_named, <- Hps, Hp.
  cbn [data applyParams emit with_data].
  now apply load_same_scale.
Qed.

Lemma selectPreset_forgets_history_witness :
  let c := onCatalogReplaced [ply3mm; acrylic6mm] (mounted (created [])) in
  let c' := run [PresetSelected "acrylic6mm";
                 FieldEdited thickness (VNumber 5%float);
                 FieldEdited notes (VString "thicker");
                 PresetSelected "custom"] c in
  (presets c = presets c' /\
   Data.scale (data c) = Data.scale (data c') /\
   In "ply3mm" (names (presets c))) /\
  data (selectPreset "ply3mm" c) = data (selectPreset "ply3mm" c').
Proof.
  intros c c'.
  assert (H1 : presets c = presets c') by (vm_compute; reflexivity).
  assert (H2 : Data.scale (data c) = Data.scale (data c'))
    by (vm_compute; reflexivity).
  assert (H3 : In "ply3mm" (names (presets c)))
    by (vm_compute; left; reflexivity).
  split; [repeat apply conj; assumption|].
  exact (selectPreset_forgets_history "ply3mm" c c' H1 H2 H3).
Defined.

(** ** Start-up *)

(** X15.  Mounting a panel created over catalog [ps] keeps the catalog and
    the default scale 1.  With no rows the data are the defaults of [data()],
    selected name [custom], and the owner receives exactly one payload, that
    of the defaults.  With rows the panel is bound to the first row under its
    name and the owner receives the payload of that state twice. *)
Theorem mounted_created (ps : list Preset.t) :
  presets (mounted (created ps)) = ps /\
  Data.scale (data (mounted (created ps))) = VNumber 1%float /\
  match ps with
  | [] =>
      data (mounted (created ps)) = Data.initial /\
      emitted (mounted (created ps)) = [Update (snapshot Data.initial)]
  | p :: _ =>
      bound_to (data (mounted (created ps))) p /\
      Data.preset (data (mounted (created ps))) = Preset.preset p /\
      emitted (mounted (created ps))
      = [Update (snapshot (data (mounted (created ps))));
         Update (snapshot (data (mounted (created ps))))]
  end.
Proof.
  change (mounted (created ps)) with (onCatalogReplaced ps (created ps)).
  destruct ps as [|p ps].
  - repeat apply conj; reflexivity.
  - rewrite onCatalogReplaced_cons. cbn [presets data emitted created].
    repeat apply conj; try reflexivity.
Qed.
